(** * react-data-styles: the Counter and CounterButton components

    A shallow embedding of the two component functions of the repository
    (Counter.js and CounterComponents/CounterButton.js) together with the
    part of the React contract they are written against: JavaScript
    numbers, property access, [React.createElement], the [useState] hook
    and the dispatch of a click to the [onClick] listener. *)

From Stdlib Require Import ZArith Zpower Lia Bool.
From Stdlib Require Import Floats.SpecFloat.
From stdpp Require Import base option list strings gmap.

Local Open Scope string_scope.
Local Open Scope list_scope.
Local Open Scope Z_scope.

(** ** JavaScript numbers

    A JavaScript Number is an IEEE-754 binary64 value.  The standard
    library's [spec_float] is the specification of that format; [+] and
    [*] round to nearest, ties to even. *)
Module JSNumber.

Definition number : Type := spec_float.

Definition prec : Z := 53.
Definition emax : Z := 1024.

(** The Number denoted by an integer literal. *)
Definition of_Z (z : Z) : number := binary_normalize prec emax z 0 false.

(** [a + b] and [a * b] on Numbers. *)
Definition add (a b : number) : number := SFadd prec emax a b.
Definition mul (a b : number) : number := SFmul prec emax a b.

(** The integers every one of which is a Number: [0 .. 2^53]. *)
Definition max_exact : Z := 2 ^ prec.

(** The normal form of the Number whose value is the integer [q],
    for [q] of at most [prec] binary digits: the mantissa is [q]
    shifted left to exactly [prec] digits. *)
Definition canon (q : positive) : number :=
  let d := Zpos (digits2_pos q) in
  S754_finite false (Z.to_pos (Zpos q * 2 ^ (prec - d))) (d - prec).

(** The integer a Number denotes, when it denotes one. *)
Definition to_Z (x : number) : option Z :=
  match x with
  | S754_zero _ => Some 0
  | S754_finite s m e =>
      if 0 <=? e then Some (cond_Zopp s (Zpos m * 2 ^ e))
      else if Zpos m mod 2 ^ (- e) =? 0
           then Some (cond_Zopp s (Zpos m / 2 ^ (- e)))
           else None
  | _ => None
  end.

End JSNumber.

Import JSNumber.

(** ** JavaScript values and React elements *)

(** What the [type] of a React element can be in this program: the name of
    a host (DOM) element, or the [CounterButton] component function. *)
Inductive etype : Type :=
| Host (tag : string)
| CounterButtonT.

(** The state of the hooks of the one [Counter] instance: the cell behind
    [useState(0)], [None] until the first render has initialised it. *)
Definition hooks : Type := option number.

#[local] Set Warnings "-register-all".

(** Values.  A function value is a zero-argument callback, represented by
    its effect on the hook state; a React element is the [type], the
    attributes and the children it was created with. *)
Inductive value : Type :=
| VUndefined
| VNull
| VBool (b : bool)
| VNum (n : number)
| VStr (s : string)
| VFun (f : hooks -> hooks)
| VArr (vs : list value)
| VObj (fields : gmap string value)
| VElem (type : etype) (config : gmap string value) (children : list value).


(** ** Exceptions

    A computation either completes with a value or throws. *)
Inductive exn : Type :=
| TypeError (msg : string).

Inductive result (A : Type) : Type :=
| Ok (a : A)
| Throw (e : exn).
Arguments Ok {A} a.
Arguments Throw {A} e.

Definition bind {A B : Type} (r : result A) (k : A -> result B) : result B :=
  match r with
  | Ok a => k a
  | Throw e => Throw e
  end.

Declare Scope js_scope.
Delimit Scope js_scope with js.
Notation "'let*' x ':=' r 'in' k" := (bind r (fun x => k))
  (at level 10, x name, r at level 100, k at level 200) : js_scope.
Local Open Scope js_scope.

(** ** Property access, calls and element creation *)

(** [o.k]: reading a property of [undefined] or [null] throws; an object
    yields the field, or [undefined] when it has none of that name.  The
    built-in properties of the other kinds of value ([length], [name],
    ...) are not modelled: the program reads only [numberFunction] and
    [buttonLabel], which none of them has.  Objects are plain records of
    data properties, as the props objects React builds are: an accessor
    property or a Proxy, whose read can run code and throw, has no
    counterpart in [value]. *)
Definition get_prop (o : value) (k : string) : result value :=
  match o with
  | VUndefined => Throw (TypeError "Cannot read properties of undefined")
  | VNull => Throw (TypeError "Cannot read properties of null")
  | VObj fields => Ok (default VUndefined (fields !! k))
  | _ => Ok VUndefined
  end.

(** [f()]: calling anything but a function throws. *)
Definition call (f : value) (h : hooks) : result hooks :=
  match f with
  | VFun body => Ok (body h)
  | _ => Throw (TypeError "not a function")
  end.

(** [React.createElement(type, config, ...children)], which JSX compiles
    to. *)
Definition createElement (type : etype) (config : gmap string value)
    (children : list value) : value :=
  VElem type config children.

(** The [props] object of an element: its attributes, with the children
    under [children] (the child itself when there is one, an array when
    there are more). *)
Definition props_of (config : gmap string value) (children : list value)
    : gmap string value :=
  match children with
  | [] => config
  | [c] => <["children" := c]> config
  | _ => <["children" := VArr children]> config
  end.

(** ** CounterButton.js *)

(** [CounterButton(properties)] returns
    [<button onClick={properties.numberFunction}>{properties.buttonLabel}</button>]. *)
Definition CounterButton (properties : value) : result value :=
  let* numberFunction := get_prop properties "numberFunction" in
  let* buttonLabel := get_prop properties "buttonLabel" in
  Ok (createElement (Host "button") {[ "onClick" := numberFunction ]}
        [buttonLabel]).

(** ** Counter.js *)

(** [useState(init)]: the current value of the cell (initialised on the
    first render) and its setter.  [setCount(v)] replaces the value of the
    cell, whatever it holds when the update is applied. *)
Definition setter : Type := number -> hooks -> hooks.

Definition useState (init : number) (h : hooks) : (number * setter) * hooks :=
  let current := default init h in
  ((current, fun v _ => Some v), Some current).

(** The three arrow functions of [Counter], closed over the [count] and
    the [setCount] of the render that creates them. *)
Definition addNumber (count : number) (setCount : setter) : hooks -> hooks :=
  fun h => setCount (add count (of_Z 1)) h.

Definition multNumber (count : number) (setCount : setter) : hooks -> hooks :=
  fun h => setCount (mul count (of_Z 5)) h.

Definition resetNumber (setCount : setter) : hooks -> hooks :=
  fun h => setCount (of_Z 0) h.

(** [Counter()]: one render of the component, against the hook state. *)
Definition Counter (h : hooks) : value * hooks :=
  let '((count, setCount), h') := useState (of_Z 0) h in
  let addNumber := addNumber count setCount in
  let multNumber := multNumber count setCount in
  let resetNumber := resetNumber setCount in
  (createElement (Host "div") {[ "className" := VStr "counter" ]}
     [ createElement (Host "h2") ∅ [VStr "React Counter"];
       createElement (Host "p") {[ "className" := VStr "click_desc" ]}
         [ VStr "Your count: ";
           createElement (Host "span") ∅ [VNum count] ];
       createElement (Host "div") {[ "className" := VStr "button_container" ]}
         [ createElement CounterButtonT
             (<["numberFunction" := VFun addNumber]>
                {[ "buttonLabel" := VStr "++" ]}) [];
           createElement CounterButtonT
             (<["numberFunction" := VFun multNumber]>
                {[ "buttonLabel" := VStr "*=5" ]}) [];
           createElement CounterButtonT
             (<["numberFunction" := VFun resetNumber]>
                {[ "buttonLabel" := VStr "=0" ]}) [] ] ],
   h').

(** ** The view runtime

    React is not part of the repository.  What follows is the part of its
    contract the components rely on: it calls [Counter] to render, renders
    each [<CounterButton/>] by calling [CounterButton] with the element's
    props, and on a click calls the [onClick] listener of the button. *)

(** The props of the [<CounterButton/>] elements of a view, in document
    order. *)
Fixpoint instances (v : value) : list (gmap string value) :=
  match v with
  | VElem CounterButtonT config children => [props_of config children]
  | VElem (Host _) _ children => flat_map instances children
  | _ => []
  end.

(** The host elements of a view with a given tag, in document order. *)
Fixpoint elements_by_tag (tag : string) (v : value) : list value :=
  match v with
  | VElem (Host t) _ children =>
      (if String.eqb t tag then [v] else [])
        ++ flat_map (elements_by_tag tag) children
  | _ => []
  end.

Definition children_of (v : value) : list value :=
  match v with
  | VElem _ _ children => children
  | _ => []
  end.

(** What the page shows as the count: the content of the [<span>]. *)
Definition displayed (v : value) : option value :=
  match elements_by_tag "span" v with
  | span :: _ => head (children_of span)
  | [] => None
  end.

(** A click on a rendered host element.  No listener ([undefined] or
    [null]): nothing happens.  Otherwise the listener is called (with the
    event, which the callbacks of this program take no notice of). *)
Definition click (element : value) (h : hooks) : result hooks :=
  match element with
  | VElem (Host _) config _ =>
      match default VUndefined (config !! "onClick") with
      | VUndefined | VNull => Ok h
      | listener => call listener h
      end
  | _ => Ok h
  end.

(** The mounted component: the hook state and the view of the last
    render. *)
Record page : Type := { store : hooks; view : value }.

Definition render (h : hooks) : page :=
  let '(v, h') := Counter h in {| store := h'; view := v |}.

Definition mount : page := render None.

Inductive event : Type :=
| Click (i : nat)      (* a click on the i-th button of the page *)
| Render.              (* React re-renders the component *)

(** One event.  A click goes to the button rendered for the i-th
    [<CounterButton/>] of the view on the page; [CounterButton] being a
    function of the props, that button is computed here from the props the
    view holds. *)
Definition step (p : page) (e : event) : result page :=
  match e with
  | Render => Ok (render (store p))
  | Click i =>
      match instances (view p) !! i with
      | None => Ok p
      | Some props =>
          let* button := CounterButton (VObj props) in
          let* h' := click button (store p) in
          Ok {| store := h'; view := view p |}
      end
  end.

Fixpoint run (p : page) (es : list event) : result page :=
  match es with
  | [] => Ok p
  | e :: es' => let* p' := step p e in run p' es'
  end.

(** ** Transitions, as the specification words them *)

Inductive transition : Type := increment | scale | reset.

(** increment: next = current + 1; scale: next = current * 5;
    reset: next = 0. *)
Definition next (t : transition) (current : number) : number :=
  match t with
  | increment => add current (of_Z 1)
  | scale => mul current (of_Z 5)
  | reset => of_Z 0
  end.

(** The button each transition is bound to: [++], [*=5], [=0]. *)
Definition button_of (t : transition) : nat :=
  match t with
  | increment => 0%nat
  | scale => 1%nat
  | reset => 2%nat
  end.

(** An activation followed by the re-render React schedules for it. *)
Definition settled (ts : list transition) : list event :=
  flat_map (fun t => [Click (button_of t); Render]) ts.

(** Activations with no re-render in between. *)
Definition batched (ts : list transition) : list event :=
  map (fun t => Click (button_of t)) ts.

(** The page as rendered when the cell holds [c]. *)
Definition page_at (c : number) : page := render (Some c).


(** The transitions on mathematical integers. *)
Definition nextZ (t : transition) (n : Z) : Z :=
  match t with
  | increment => n + 1
  | scale => n * 5
  | reset => 0
  end.

(** Every value the integer fold goes through from [n] stays exactly
    representable. *)
Fixpoint within (n : Z) (ts : list transition) : bool :=
  match ts with
  | [] => true
  | t :: ts' => (nextZ t n <=? max_exact) && within (nextZ t n) ts'
  end.

(** The left-to-right fold of the transitions over a starting value. *)
Definition fold_next (ts : list transition) (init : number) : number :=
  fold_left (fun current t => next t current) ts init.

Definition fold_nextZ (ts : list transition) (init : Z) : Z :=
  fold_left (fun current t => nextZ t current) ts init.

(** A page whose view was rendered when the cell held [captured], while
    the cell now holds [h]. *)
Definition stale_page (captured : number) (h : hooks) : page :=
  {| store := h; view := view (page_at captured) |}.

(** The [<button>] that [CounterButton] renders for a callback and a
    label. *)
Definition button (onClick label : value) : value :=
  VElem (Host "button") {[ "onClick" := onClick ]} [label].

(** The field of a props object, [undefined] when it is missing. *)
Definition field (fields : gmap string value) (k : string) : value :=
  default VUndefined (fields !! k).

(** C1, as the specification states it: whatever has happened to the
    page, an activation computes the next state from the value the cell
    holds when the callback fires. *)
Definition reads_live_value : Prop :=
  forall (es : list event) (p : page) (live : number) (t : transition),
    run mount es = Ok p -> store p = Some live ->
    exists p', step p (Click (button_of t)) = Ok p'
               /\ store p' = Some (next t live).

(** A schedule: batches of activations, each batch followed by a
    re-render. *)
Definition schedule (bs : list (list transition)) : list event :=
  flat_map (fun b => batched b ++ [Render]) bs.

(** C2, as the specification states it: however the activations fall
    between the re-renders, after a re-render the page shows the fold of
    all the activations so far over 0. *)
Definition shows_fold_on_every_schedule : Prop :=
  forall bs : list (list transition),
    exists p, run mount (schedule bs) = Ok p
              /\ displayed (view p)
                 = Some (VNum (fold_next (concat bs) (of_Z 0))).

(** The activations that count: the last one of each batch. *)
Definition effective (bs : list (list transition)) : list transition :=
  omap last bs.

(** A Number a count can be: zero, a positive finite Number or
    [+Infinity]; not [NaN], not [-0], nothing negative. *)
Definition counting (x : number) : bool :=
  match x with
  | S754_zero false | S754_infinity false | S754_finite false _ _ => true
  | _ => false
  end.

Definition infinity : number := S754_infinity false.

(** React renders every [<CounterButton/>] of a view: the buttons of the
    page, in document order. *)
Fixpoint render_all (ps : list (gmap string value)) : result (list value) :=
  match ps with
  | [] => Ok []
  | props :: ps' =>
      let* b := CounterButton (VObj props) in
      let* bs := render_all ps' in
      Ok (b :: bs)
  end.

(** The activations that display the integer [n], least significant
    base-5 digit last: the path to [n / 5], one scale, [n mod 5]
    increments. *)
Fixpoint path (fuel : nat) (n : Z) : list transition :=
  match fuel with
  | O => []
  | S fuel' =>
      if n <=? 0 then []
      else path fuel' (n / 5) ++ scale :: repeat increment (Z.to_nat (n mod 5))
  end.

(** * Properties *)

(** ** Numbers: integer arithmetic is exact up to [2^53] *)
Section ExactIntegers.

(** Bounds stated with [max_exact] and [prec], as linear arithmetic. *)
Ltac bounds :=
  unfold max_exact, prec, emax in *;
  change (2 ^ 53) with 9007199254740992 in *;
  lia.

Lemma iter_pos_iter {A} (f : A -> A) n x :
  SpecFloat.iter_pos f n x = Pos.iter f x n.
Proof.
  revert x. induction n as [n IH|n IH|]; intros x; simpl.
  - rewrite !IH. now rewrite <- !Pos.iter_swap.
  - now rewrite !IH.
  - reflexivity.
Qed.

(** Shifting right what was shifted left loses nothing. *)
Lemma shr_1_exact k r :
  Pos.iter shr_1 (Build_shr_record (Zpos (Pos.iter xO r k)) false false) k
  = Build_shr_record (Zpos r) false false.
Proof.
  induction k as [|k IH] using Pos.peano_ind.
  - reflexivity.
  - rewrite (Pos.iter_succ k _ xO), Pos.iter_succ_r. exact IH.
Qed.

Lemma digits2_pos_iter q k :
  digits2_pos (Pos.iter xO q k) = (digits2_pos q + k)%positive.
Proof.
  induction k as [|k IH] using Pos.peano_ind.
  - simpl. lia.
  - rewrite Pos.iter_succ. simpl. rewrite IH. lia.
Qed.

Lemma digits2_pos_size q : digits2_pos q = Pos.size q.
Proof. induction q; simpl; congruence. Qed.

Lemma Zpos_iter_xO q k : Zpos (Pos.iter xO q k) = Zpos q * 2 ^ Zpos k.
Proof.
  change (Pos.iter xO q k) with (shift_pos k q).
  rewrite shift_pos_correct, Z.pow_pos_fold. lia.
Qed.

Lemma digits2_pos_bound q k :
  0 <= k -> (Zpos (digits2_pos q) <= k <-> Zpos q < 2 ^ k).
Proof.
  intros Hk. rewrite digits2_pos_size. split; intros H.
  - pose proof (Pos.size_gt q) as G.
    apply Pos2Z.pos_lt_pos in G. rewrite Pos2Z.inj_pow in G.
    eapply Z.lt_le_trans; [exact G|]. apply Z.pow_le_mono_r; lia.
  - pose proof (Pos.size_le q) as G.
    apply Pos2Z.pos_le_pos in G. rewrite Pos2Z.inj_pow in G.
    destruct (Z.le_gt_cases (Zpos (Pos.size q)) k) as [|C];
      [assumption|exfalso].
    assert (2 ^ (k + 1) <= 2 ^ Zpos (Pos.size q))
      by (apply Z.pow_le_mono_r; lia).
    rewrite Z.pow_add_r in * by lia.
    change (Zpos q~0) with (2 * Zpos q) in G. lia.
Qed.

(** Rounding a mantissa that is [q] shifted left far enough is exact. *)
Lemma binary_round_aux_exact (m q : positive) (k : Z) :
  let d := Zpos (digits2_pos q) in
  d <= prec -> prec - d <= k ->
  Zpos m = Zpos q * 2 ^ k ->
  binary_round_aux prec emax false (Zpos m) (- k) loc_Exact = canon q.
Proof.
  intros d Hd Hk Hm.
  assert (Hd0 : 0 < d) by (unfold d; lia).
  set (r := Z.to_pos (Zpos q * 2 ^ (prec - d))).
  assert (Hr : Zpos r = Zpos q * 2 ^ (prec - d)).
  { unfold r. rewrite Z2Pos.id; [reflexivity|].
    apply Z.mul_pos_pos; [lia|]. apply Z.pow_pos_nonneg; lia. }
  assert (Hdr : Zpos (digits2_pos r) = prec).
  { destruct (prec - d) as [|j|j] eqn:E; try lia.
    - replace r with q; [lia|]. apply Pos2Z.inj. rewrite Hr. simpl. lia.
    - replace r with (Pos.iter xO q j).
      + rewrite digits2_pos_iter. lia.
      + apply Pos2Z.inj. rewrite Hr. apply Zpos_iter_xO. }
  remember (k - (prec - d)) as j eqn:Hj.
  assert (Hmr : Zpos m = Zpos r * 2 ^ j).
  { rewrite Hm, Hr, <- Z.mul_assoc, <- Z.pow_add_r by lia.
    do 2 f_equal. lia. }
  assert (Hstep1 : shr_fexp prec emax (Zpos m) (- k) loc_Exact
                   = (Build_shr_record (Zpos r) false false, d - prec)).
  { unfold shr_fexp, shr_record_of_loc, Zdigits2.
    destruct j as [|jp|jp]; [| |lia].
    - assert (m = r) as -> by (apply Pos2Z.inj; rewrite Hmr; simpl; lia).
      rewrite Hdr. unfold fexp, emin.
      replace (Z.max (prec + - k - prec) (3 - emax - prec) - - k) with 0.
      + unfold shr. f_equal. lia.
      + unfold prec, emax in *. lia.
    - assert (m = Pos.iter xO r jp) as ->
        by (apply Pos2Z.inj; rewrite Hmr; symmetry; apply Zpos_iter_xO).
      rewrite digits2_pos_iter, Pos2Z.inj_add, Hdr. unfold fexp, emin.
      replace (Z.max (prec + Zpos jp + - k - prec) (3 - emax - prec) - - k)
        with (Zpos jp).
      + unfold shr. rewrite iter_pos_iter, shr_1_exact. f_equal. lia.
      + unfold prec, emax in *. lia. }
  assert (Hstep2 : shr_fexp prec emax (Zpos r) (d - prec) loc_Exact
                   = (Build_shr_record (Zpos r) false false, d - prec)).
  { unfold shr_fexp, shr_record_of_loc, Zdigits2. rewrite Hdr.
    unfold fexp, emin.
    replace (Z.max (prec + (d - prec) - prec) (3 - emax - prec) - (d - prec))
      with 0.
    - reflexivity.
    - unfold prec, emax in *. lia. }
  unfold binary_round_aux. rewrite Hstep1.
  cbn [shr_m loc_of_shr_record round_nearest_even].
  rewrite Hstep2. cbn [shr_m].
  replace (d - prec <=? emax - prec) with true.
  - unfold canon. fold d. fold r. reflexivity.
  - symmetry. apply Z.leb_le. unfold prec, emax in *. lia.
Qed.

Lemma binary_round_exact (m q : positive) (k : Z) :
  let d := Zpos (digits2_pos q) in
  d <= prec -> 0 <= k ->
  Zpos m = Zpos q * 2 ^ k ->
  binary_round prec emax false m (- k) = canon q.
Proof.
  intros d Hd Hk Hm.
  assert (Hd0 : 0 < d) by (unfold d; lia).
  assert (Hdm : Zpos (digits2_pos m) = d + k).
  { destruct k as [|kp|kp]; [| |lia].
    - replace m with q; [lia|]. apply Pos2Z.inj. rewrite Hm. simpl. lia.
    - replace m with (Pos.iter xO q kp).
      + rewrite digits2_pos_iter. lia.
      + apply Pos2Z.inj. rewrite Hm. apply Zpos_iter_xO. }
  unfold binary_round. rewrite Hdm. unfold fexp, emin.
  replace (Z.max (d + k + - k - prec) (3 - emax - prec)) with (- (prec - d))
    by (unfold prec, emax in *; lia).
  unfold shl_align.
  destruct (- (prec - d) - - k) as [|j|j] eqn:E; cbv beta iota.
  - apply binary_round_aux_exact; fold d; lia.
  - apply binary_round_aux_exact; fold d; lia.
  - apply binary_round_aux_exact; fold d; [lia|lia|].
    rewrite Zpos_iter_xO, Hm, <- Z.mul_assoc, <- Z.pow_add_r by lia.
    do 2 f_equal. lia.
Qed.

(** The Number of an integer literal of at most 53 bits is the integer's
    normal form: no rounding. *)
Lemma of_Z_pos q : Zpos (digits2_pos q) <= prec -> of_Z (Zpos q) = canon q.
Proof.
  intros Hd. unfold of_Z, binary_normalize. change 0 with (- 0).
  apply binary_round_exact; [assumption|lia|]. rewrite Z.pow_0_r. lia.
Qed.

Lemma canon_finite q :
  let d := Zpos (digits2_pos q) in
  d <= prec ->
  exists r, canon q = S754_finite false r (d - prec)
            /\ Zpos r = Zpos q * 2 ^ (prec - d).
Proof.
  intros d Hd. eexists. split; [reflexivity|].
  rewrite Z2Pos.id; [reflexivity|].
  apply Z.mul_pos_pos; [lia|]. apply Z.pow_pos_nonneg; fold d; lia.
Qed.

Lemma shl_align_Zpos m e e' :
  e' <= e -> Zpos (fst (shl_align m e e')) = Zpos m * 2 ^ (e - e').
Proof.
  intros H. unfold shl_align. destruct (e' - e) as [|j|j] eqn:E; cbn [fst].
  - replace (e - e') with 0 by lia. rewrite Z.pow_0_r. lia.
  - lia.
  - rewrite Zpos_iter_xO. do 2 f_equal. lia.
Qed.

Lemma add_canon_one p :
  Zpos (digits2_pos (p + 1)) <= prec ->
  add (canon p) (of_Z 1) = canon (p + 1).
Proof.
  intros Hd'.
  assert (Hd : Zpos (digits2_pos p) <= prec).
  { apply digits2_pos_bound; [unfold prec; lia|].
    apply digits2_pos_bound in Hd'; [lia|unfold prec; lia]. }
  destruct (canon_finite p Hd) as (r & -> & Hr).
  set (d := Zpos (digits2_pos p)) in *.
  assert (Hd0 : 0 < d) by (unfold d; lia).
  change (of_Z 1) with (S754_finite false 4503599627370496 (-52)).
  unfold add, SFadd, cond_Zopp. cbv zeta.
  replace (Z.min (d - prec) (-52)) with (-52) by (unfold prec in *; lia).
  rewrite <- Pos2Z.inj_add. unfold binary_normalize.
  apply (binary_round_exact _ (p + 1) 52); [assumption|lia|].
  rewrite Pos2Z.inj_add, !shl_align_Zpos by (unfold prec in *; lia).
  rewrite Hr, <- Z.mul_assoc, <- Z.pow_add_r by (unfold prec in *; lia).
  replace (prec - d + (d - prec - -52)) with 52 by lia.
  change (-52 - -52) with 0. rewrite Z.pow_0_r.
  change (2 ^ 52) with 4503599627370496. lia.
Qed.

Lemma mul_canon_five p :
  Zpos (digits2_pos (p * 5)) <= prec ->
  mul (canon p) (of_Z 5) = canon (p * 5).
Proof.
  intros Hd'.
  assert (Hd : Zpos (digits2_pos p) <= prec).
  { apply digits2_pos_bound; [unfold prec; lia|].
    apply digits2_pos_bound in Hd'; [lia|unfold prec; lia]. }
  assert (Hd3 : 2 < Zpos (digits2_pos (p * 5))).
  { destruct (Z.le_gt_cases (Zpos (digits2_pos (p * 5))) 2) as [C|]; [|lia].
    apply digits2_pos_bound in C; [|lia]. change (2 ^ 2) with 4 in C. lia. }
  destruct (canon_finite p Hd) as (r & -> & Hr).
  set (d := Zpos (digits2_pos p)) in *.
  assert (Hd0 : 0 < d) by (unfold d; lia).
  change (of_Z 5) with (S754_finite false 5629499534213120 (-50)).
  unfold mul, SFmul. cbn [xorb].
  replace (d - prec + -50) with (- (prec - d + 50)) by lia.
  apply binary_round_aux_exact; [assumption|unfold prec in *; lia|].
  rewrite Pos2Z.inj_mul, Hr, Z.pow_add_r by (unfold prec in *; lia).
  change (2 ^ 50) with 1125899906842624. rewrite Pos2Z.inj_mul. ring.
Qed.

(** [c + 1] is exact while the sum is at most [2^53]. *)
Lemma add_one_exact n :
  0 <= n < max_exact -> add (of_Z n) (of_Z 1) = of_Z (n + 1).
Proof.
  intros [H0 H1]. destruct n as [|p|p]; [reflexivity| |lia].
  destruct (Z.eq_dec (Zpos p + 1) max_exact) as [E|E].
  - assert (p = 9007199254740991%positive) as -> by bounds.
    vm_compute. reflexivity.
  - assert (Hd' : Zpos (digits2_pos (p + 1)) <= prec).
    { apply digits2_pos_bound; [unfold prec; lia|].
      unfold max_exact in *. lia. }
    assert (Hd : Zpos (digits2_pos p) <= prec).
    { apply digits2_pos_bound; [unfold prec; lia|].
      unfold max_exact in *. lia. }
    rewrite (of_Z_pos p) by assumption.
    change (Zpos p + 1) with (Zpos (p + 1)).
    rewrite (of_Z_pos (p + 1)) by assumption. now apply add_canon_one.
Qed.

(** [c * 5] is exact while the product is at most [2^53]. *)
Lemma mul_five_exact n :
  0 <= n -> n * 5 <= max_exact -> mul (of_Z n) (of_Z 5) = of_Z (n * 5).
Proof.
  intros H0 H1. destruct n as [|p|p]; [reflexivity| |lia].
  assert (Hd' : Zpos (digits2_pos (p * 5)) <= prec).
  { apply digits2_pos_bound; [unfold prec; lia|]. bounds. }
  assert (Hd : Zpos (digits2_pos p) <= prec).
  { apply digits2_pos_bound; [unfold prec; lia|].
    apply digits2_pos_bound in Hd'; [lia|unfold prec; lia]. }
  rewrite (of_Z_pos p) by assumption.
  change (Zpos p * 5) with (Zpos (p * 5)).
  rewrite (of_Z_pos (p * 5)) by assumption. now apply mul_canon_five.
Qed.

(** Distinct integers up to [2^53] are distinct Numbers. *)
Lemma to_Z_of_Z n : 0 <= n <= max_exact -> to_Z (of_Z n) = Some n.
Proof.
  intros [H0 H1]. destruct n as [|p|p]; [reflexivity| |lia].
  destruct (Z.eq_dec (Zpos p) max_exact) as [E|E].
  - rewrite E. vm_compute. reflexivity.
  - assert (Hd : Zpos (digits2_pos p) <= prec).
    { apply digits2_pos_bound; [unfold prec; lia|].
      unfold max_exact in *. lia. }
    rewrite of_Z_pos by assumption.
    destruct (canon_finite p Hd) as (r & -> & Hr).
    set (d := Zpos (digits2_pos p)) in *.
    assert (Hd0 : 0 < d) by (unfold d; lia).
    unfold to_Z, cond_Zopp. rewrite Hr.
    destruct (Z.leb_spec 0 (d - prec)) as [L|L].
    + replace (prec - d) with 0 by lia. replace (d - prec) with 0 by lia.
      rewrite Z.pow_0_r. f_equal. lia.
    + replace (- (d - prec)) with (prec - d) by lia.
      rewrite Z.mod_mul, Z.eqb_refl, Z.div_mul
        by (apply Z.pow_nonzero; lia).
      reflexivity.
Qed.

Lemma of_Z_inj n n' :
  0 <= n <= max_exact -> 0 <= n' <= max_exact ->
  of_Z n = of_Z n' -> n = n'.
Proof.
  intros Hn Hn' E. apply to_Z_of_Z in Hn, Hn'. congruence.
Qed.

End ExactIntegers.

(** ** Numbers: the transitions on integers *)
Section Transitions.

Lemma next_exact t n :
  0 <= n -> nextZ t n <= max_exact -> next t (of_Z n) = of_Z (nextZ t n).
Proof.
  intros H0 H1. destruct t; cbn [next nextZ] in *.
  - apply add_one_exact. lia.
  - now apply mul_five_exact.
  - reflexivity.
Qed.

Lemma nextZ_nonneg t n : 0 <= n -> 0 <= nextZ t n.
Proof. destruct t; cbn [nextZ]; lia. Qed.

Lemma fold_next_exact ts : forall n,
  0 <= n -> within n ts = true ->
  fold_next ts (of_Z n) = of_Z (fold_nextZ ts n).
Proof.
  induction ts as [|t ts IH]; intros n H0 Hw; [reflexivity|].
  cbn [within] in Hw. apply andb_true_iff in Hw as [Hle Hw].
  apply Z.leb_le in Hle.
  unfold fold_next, fold_nextZ. cbn [fold_left].
  rewrite next_exact by assumption.
  apply IH; [now apply nextZ_nonneg|assumption].
Qed.

(** Past [2^53] the sum is rounded: [2^53 + 1] is [2^53] again, and so
    two increments from [2^53] do not reach [2^53 + 2]. *)
Lemma add_one_rounds_at_max_exact :
  add (of_Z max_exact) (of_Z 1) = of_Z max_exact
  /\ fold_next [increment; increment] (of_Z max_exact) = of_Z max_exact
  /\ of_Z max_exact <> of_Z (fold_nextZ [increment; increment] max_exact).
Proof. repeat split. vm_compute. discriminate. Qed.

End Transitions.

(** ** The runtime *)
Section Runtime.

Lemma mount_page : mount = page_at (of_Z 0).
Proof. reflexivity. Qed.

Lemma render_Some c : render (Some c) = page_at c.
Proof. reflexivity. Qed.

Lemma displayed_page_at c : displayed (view (page_at c)) = Some (VNum c).
Proof. reflexivity. Qed.

(** A click runs the callback of the view on the page, which sets the
    cell from the [count] that view was rendered with. *)
Lemma click_stale_page c h t :
  step (stale_page c h) (Click (button_of t))
  = Ok (stale_page c (Some (next t c))).
Proof. destruct t; reflexivity. Qed.

Lemma rerender_stale_page c c' :
  step (stale_page c (Some c')) Render = Ok (page_at c').
Proof. reflexivity. Qed.

Lemma page_at_stale c : page_at c = stale_page c (Some c).
Proof. reflexivity. Qed.

Lemma run_app p es es' :
  run p (es ++ es') = bind (run p es) (fun p' => run p' es').
Proof.
  revert p. induction es as [|e es IH]; intros p; [reflexivity|].
  cbn [run app]. destruct (step p e); cbn [bind]; [apply IH|reflexivity].
Qed.

Lemma run_settled ts : forall c,
  run (page_at c) (settled ts) = Ok (page_at (fold_next ts c)).
Proof.
  induction ts as [|t ts IH]; intros c; [reflexivity|].
  change (settled (t :: ts))
    with (Click (button_of t) :: Render :: settled ts).
  cbn [run]. rewrite page_at_stale, click_stale_page. cbn [bind].
  rewrite rerender_stale_page. cbn [bind]. apply IH.
Qed.

Lemma run_batched ts : forall c h t,
  run (stale_page c h) (batched (ts ++ [t]))
  = Ok (stale_page c (Some (next t c))).
Proof.
  induction ts as [|t' ts IH]; intros c h t.
  - cbn [app batched map run]. rewrite click_stale_page. reflexivity.
  - change (batched ((t' :: ts) ++ [t]))
      with (Click (button_of t') :: batched (ts ++ [t])).
    cbn [run]. rewrite click_stale_page. cbn [bind]. apply IH.
Qed.

(** Whatever the batching, each re-render shows the fold over the last
   activation of every batch: the earlier ones of a batch are lost. *)
Lemma run_schedule bs : forall c,
  run (page_at c) (schedule bs) = Ok (page_at (fold_next (effective bs) c)).
Proof.
  induction bs as [|b bs IH]; intros c; [reflexivity|].
  change (schedule (b :: bs)) with ((batched b ++ [Render]) ++ schedule bs).
  rewrite run_app, run_app.
  destruct b as [|t ts _] using rev_ind.
  - exact (IH c).
  - rewrite page_at_stale, run_batched. cbn [bind run].
    rewrite rerender_stale_page. cbn [bind].
    unfold effective. cbn [omap list_omap]. rewrite last_snoc.
    exact (IH (next t c)).
Qed.

Lemma settled_schedule ts : settled ts = schedule (map (fun t => [t]) ts).
Proof.
  induction ts as [|t ts IH]; [reflexivity|].
  change (settled (t :: ts)) with (Click (button_of t) :: Render :: settled ts).
  now rewrite IH.
Qed.

Lemma effective_singletons ts : effective (map (fun t => [t]) ts) = ts.
Proof.
  induction ts as [|t ts IH]; [reflexivity|].
  unfold effective in *. cbn [map omap list_omap last]. now rewrite IH.
Qed.

End Runtime.

(** ** CounterButton *)
Section CounterButtonFacts.

(** [CounterButton] never looks at what it is given: the two fields go
    into the [<button>] as they are. *)
Lemma CounterButton_object fields :
  CounterButton (VObj fields)
  = Ok (button (field fields "numberFunction") (field fields "buttonLabel")).
Proof. reflexivity. Qed.

(** Only a props argument that is not an object at all makes the
    property access throw; React never passes one. *)
Lemma CounterButton_undefined :
  CounterButton VUndefined
  = Throw (TypeError "Cannot read properties of undefined").
Proof. reflexivity. Qed.

(** A click on a button whose listener is a function calls it. *)
Lemma click_button_function f label h :
  click (button (VFun f) label) h = Ok (f h).
Proof. reflexivity. Qed.

(** A click on a button without listener does nothing; a listener that
    is not a function fails when the click is dispatched. *)
Lemma click_button_missing label h :
  click (button VUndefined label) h = Ok h.
Proof. reflexivity. Qed.

Lemma click_button_string s label h :
  click (button (VStr s) label) h = Throw (TypeError "not a function").
Proof. reflexivity. Qed.

End CounterButtonFacts.

(** * The claims of the specification *)

(** C1 (counterexample).  Two activations of [++] before a re-render: when
    the second callback fires the cell holds 1, and the callback sets it
    to 1 again, not to 2. *)
Lemma second_increment_reads_stale_count :
  run mount [Click 0%nat] = Ok (stale_page (of_Z 0) (Some (of_Z 1)))
  /\ step (stale_page (of_Z 0) (Some (of_Z 1))) (Click 0%nat)
     = Ok (stale_page (of_Z 0) (Some (of_Z 1)))
  /\ next increment (of_Z 1) = of_Z 2
  /\ of_Z 2 <> of_Z 1
  /\ ~ reads_live_value.
Proof.
  assert (Hne : of_Z 2 <> of_Z 1) by (vm_compute; discriminate).
  repeat split; try reflexivity; try exact Hne.
  intros Hlive.
  destruct (Hlive [Click 0%nat] (stale_page (of_Z 0) (Some (of_Z 1)))
              (of_Z 1) increment eq_refl eq_refl) as (p' & Hstep & Hstore).
  change (step (stale_page (of_Z 0) (Some (of_Z 1))) (Click (button_of increment)))
    with (Ok (stale_page (of_Z 0) (Some (of_Z 1)))) in Hstep.
  injection Hstep as <-. vm_compute in Hstore. discriminate Hstore.
Qed.

(** C1 (amended).  An activation computes the next state from the [count]
    captured by the render that created the callback, whatever the cell
    holds when the callback fires; on a page re-rendered since the last
    change the captured value is the live one. *)
Theorem callback_reads_captured_count (captured live : number) (t : transition) :
  step (stale_page captured (Some live)) (Click (button_of t))
  = Ok (stale_page captured (Some (next t captured)))
  /\ step (page_at live) (Click (button_of t))
     = Ok (stale_page live (Some (next t live))).
Proof. split; [apply click_stale_page|apply (click_stale_page live)]. Qed.

(** C2 (counterexample).  Two activations of [++] and then the re-render:
    the page shows 1, the fold of the two increments over 0 is 2. *)
Lemma two_increments_in_one_batch_show_one :
  run mount [Click 0%nat; Click 0%nat; Render] = Ok (page_at (of_Z 1))
  /\ displayed (view (page_at (of_Z 1))) = Some (VNum (of_Z 1))
  /\ fold_next [increment; increment] (of_Z 0) = of_Z 2
  /\ of_Z 1 <> of_Z 2
  /\ ~ shows_fold_on_every_schedule.
Proof.
  assert (Hne : of_Z 1 <> of_Z 2) by (vm_compute; discriminate).
  repeat split; try reflexivity; try exact Hne.
  intros Hfold.
  destruct (Hfold [[increment; increment]]) as (p & Hrun & Hshown).
  change (run mount (schedule [[increment; increment]]))
    with (Ok (page_at (of_Z 1))) in Hrun.
  injection Hrun as <-. vm_compute in Hshown. discriminate Hshown.
Qed.

(** C2 (amended).  When every activation is followed by a re-render before
    the next one, as React does for the clicks of a user, the page shows,
    after every sequence of activations, the left-to-right fold of the
    transitions over 0; and while the integers stay within [2^53] that is
    the fold of [+1], [*5], [to 0] on the integers. *)
Theorem displayed_is_fold (ts : list transition) :
  run mount (settled ts) = Ok (page_at (fold_next ts (of_Z 0)))
  /\ displayed (view (page_at (fold_next ts (of_Z 0))))
     = Some (VNum (fold_next ts (of_Z 0)))
  /\ (forall k : nat,
        run mount (settled (take k ts))
        = Ok (page_at (fold_next (take k ts) (of_Z 0))))
  /\ (within 0 ts = true ->
       fold_next ts (of_Z 0) = of_Z (fold_nextZ ts 0)).
Proof.
  split; [|split; [|split]].
  - rewrite mount_page. apply run_settled.
  - apply displayed_page_at.
  - intros k. rewrite mount_page. apply run_settled.
  - apply fold_next_exact. lia.
Qed.

Lemma displayed_is_fold_witness :
  run mount (settled [increment; increment; scale; reset; increment])
  = Ok (page_at (of_Z 1))
  /\ fold_next [increment; increment; scale] (of_Z 0) = of_Z 10.
Proof.
  split.
  - exact (proj1 (displayed_is_fold
                    [increment; increment; scale; reset; increment])).
  - apply (proj2 (proj2 (proj2
             (displayed_is_fold [increment; increment; scale])))).
    reflexivity.
Defined.

(** C3.  On a page rendered at [c], increment sets the cell to [c + 1],
    scale to [c * 5] and reset to 0 (so scale at 0 gives 0); on the
    integers up to [2^53] these are the exact sum and product. *)
Theorem transitions_compute (c : number) :
  run (page_at c) [Click (button_of increment)]
  = Ok (stale_page c (Some (add c (of_Z 1))))
  /\ run (page_at c) [Click (button_of scale)]
     = Ok (stale_page c (Some (mul c (of_Z 5))))
  /\ run (page_at c) [Click (button_of reset)]
     = Ok (stale_page c (Some (of_Z 0)))
  /\ run (page_at (of_Z 0)) [Click (button_of scale)]
     = Ok (stale_page (of_Z 0) (Some (of_Z 0)))
  /\ (forall n, 0 <= n < max_exact -> add (of_Z n) (of_Z 1) = of_Z (n + 1))
  /\ (forall n, 0 <= n -> n * 5 <= max_exact ->
                mul (of_Z n) (of_Z 5) = of_Z (n * 5)).
Proof.
  repeat split; try reflexivity.
  - intros n Hn. now apply add_one_exact.
  - intros n H0 H1. now apply mul_five_exact.
Qed.

Lemma transitions_compute_witness :
  add (of_Z 41) (of_Z 1) = of_Z 42 /\ mul (of_Z 41) (of_Z 5) = of_Z 205.
Proof.
  pose proof (transitions_compute (of_Z 41)) as (_ & _ & _ & _ & Hadd & Hmul).
  split.
  - apply (Hadd 41). unfold max_exact, prec. lia.
  - apply (Hmul 41); unfold max_exact, prec; lia.
Defined.

(** C4.  For a binding of a callback and a label (whatever else the props
    hold), [CounterButton] returns one [<button>], and nothing else: its
    text is the label as given, its [onClick] is the callback itself, and
    a click runs the callback and nothing more. *)
Theorem CounterButton_renders_binding
    (callback : hooks -> hooks) (label : string) (extra : gmap string value) :
  let props :=
    <["numberFunction" := VFun callback]> (<["buttonLabel" := VStr label]> extra) in
  let element := VElem (Host "button") {[ "onClick" := VFun callback ]} [VStr label] in
  CounterButton (VObj props) = Ok element
  /\ elements_by_tag "button" element = [element]
  /\ instances element = []
  /\ children_of element = [VStr label]
  /\ (forall h, click element h = Ok (callback h))
  /\ CounterButton (VObj (<["numberFunction" := VFun callback]>
                           {[ "buttonLabel" := VStr "++" ]}))
     = Ok (VElem (Host "button") {[ "onClick" := VFun callback ]} [VStr "++"]).
Proof.
  intros props element. repeat split.
  rewrite CounterButton_object. unfold field, props, button, element.
  rewrite lookup_insert_eq, lookup_insert_ne, lookup_insert_eq by done.
  reflexivity.
Qed.

(** C5.  From 0, increment then scale shows 5, scale then increment shows
    1, and these differ. *)
Theorem increment_scale_do_not_commute :
  run mount (settled [increment; scale]) = Ok (page_at (of_Z 5))
  /\ displayed (view (page_at (of_Z 5))) = Some (VNum (of_Z 5))
  /\ run mount (settled [scale; increment]) = Ok (page_at (of_Z 1))
  /\ displayed (view (page_at (of_Z 1))) = Some (VNum (of_Z 1))
  /\ of_Z 5 <> of_Z 1
  /\ to_Z (of_Z 5) = Some 5 /\ to_Z (of_Z 1) = Some 1.
Proof.
  repeat split; try reflexivity. vm_compute. discriminate.
Qed.

(** C6.  From any state, [n >= 1] activations of reset in a row leave the
    cell at 0, with or without a re-render in between. *)
Theorem reset_idempotent (c : number) (h : hooks) (n : nat) :
  (1 <= n)%nat ->
  run (stale_page c h) (batched (repeat reset n))
  = Ok (stale_page c (Some (of_Z 0)))
  /\ run (page_at c) (settled (repeat reset n)) = Ok (page_at (of_Z 0)).
Proof.
  intros Hn. destruct n as [|k]; [lia|]. split.
  - cbn [repeat]. rewrite repeat_cons.
    apply (run_batched (repeat reset k) c h reset).
  - rewrite run_settled. do 2 f_equal. clear Hn. revert c.
    induction k as [|k IH]; intros c; [reflexivity|].
    exact (IH (of_Z 0)).
Qed.

Lemma reset_idempotent_witness :
  run (stale_page (of_Z 7) (Some (of_Z 35))) (batched [reset; reset; reset])
  = Ok (stale_page (of_Z 7) (Some (of_Z 0)))
  /\ run (page_at (of_Z 7)) (settled [reset; reset; reset])
     = Ok (page_at (of_Z 0)).
Proof.
  apply (reset_idempotent (of_Z 7) (Some (of_Z 35)) 3). lia.
Defined.

(** C7.  For every state of the cell, [Counter] returns a tree with the
    heading, the line showing the current value, and exactly three
    [<CounterButton/>] elements, labelled [++], [*=5], [=0] and bound in
    that order to increment, scale and reset. *)
Theorem Counter_view (h : hooks) :
  let c := default (of_Z 0) h in
  let v := (Counter h).1 in
  (Counter h).2 = Some c
  /\ elements_by_tag "h2" v = [VElem (Host "h2") ∅ [VStr "React Counter"]]
  /\ elements_by_tag "p" v
     = [VElem (Host "p") {[ "className" := VStr "click_desc" ]}
          [VStr "Your count: "; VElem (Host "span") ∅ [VNum c]]]
  /\ displayed v = Some (VNum c)
  /\ length (instances v) = 3%nat
  /\ map (fun props => field props "buttonLabel") (instances v)
     = [VStr "++"; VStr "*=5"; VStr "=0"]
  /\ (forall (t : transition) (h' : hooks),
        call (field (nth (button_of t) (instances v) ∅) "numberFunction") h'
        = Ok (Some (next t c))).
Proof.
  intros c v. repeat split. intros [] h'; reflexivity.
Qed.

(** C8.  [CounterButton] validates nothing: for every props object, with
    the callback or the label missing or of any shape, it returns the
    [<button>] holding whatever the two fields are, and does not throw.
    A callback that is not a function fails only when the click on the
    button is dispatched; a malformed label is what the button shows. *)
Theorem CounterButton_does_not_validate (fields : gmap string value) :
  CounterButton (VObj fields)
  = Ok (VElem (Host "button")
          {[ "onClick" := default VUndefined (fields !! "numberFunction") ]}
          [default VUndefined (fields !! "buttonLabel")])
  /\ CounterButton (VObj ∅)
     = Ok (VElem (Host "button") {[ "onClick" := VUndefined ]} [VUndefined])
  /\ CounterButton (VObj (<["numberFunction" := VStr "addNumber"]>
                           {[ "buttonLabel" := VNull ]}))
     = Ok (VElem (Host "button") {[ "onClick" := VStr "addNumber" ]} [VNull])
  /\ (forall h,
        click (VElem (Host "button") {[ "onClick" := VStr "addNumber" ]} [VNull]) h
        = Throw (TypeError "not a function"))
  /\ children_of (VElem (Host "button") {[ "onClick" := VStr "addNumber" ]} [VNull])
     = [VNull].
Proof. repeat split. Qed.

(** C9.  The tree [CounterButton] returns is a function of the callback
    and the label alone: props that agree on the two fields render the
    same tree. *)
Theorem CounterButton_pure (fields fields' : gmap string value) :
  field fields "numberFunction" = field fields' "numberFunction" ->
  field fields "buttonLabel" = field fields' "buttonLabel" ->
  CounterButton (VObj fields) = CounterButton (VObj fields').
Proof.
  intros Hf Hl. rewrite !CounterButton_object. now rewrite Hf, Hl.
Qed.

Lemma CounterButton_pure_witness :
  CounterButton (VObj (<["numberFunction" := VNull]> {[ "buttonLabel" := VStr "++" ]}))
  = CounterButton (VObj (<["buttonLabel" := VStr "++"]>
                           (<["numberFunction" := VNull]> {[ "title" := VStr "add" ]}))).
Proof.
  apply CounterButton_pure; reflexivity.
Defined.

(** C10.  The callbacks of one render all compute from the [count] of that
    render: without a re-render, any non-empty sequence of activations
    leaves the cell at the result of the last one applied to that
    [count]; any number of increments in a row give [count + 1]. *)
Theorem batched_activations_use_captured_count
    (c : number) (h : hooks) (ts : list transition) (t : transition) :
  run (stale_page c h) (batched (ts ++ [t]))
  = Ok (stale_page c (Some (next t c)))
  /\ (forall k : nat,
        run (page_at c) (batched (repeat increment (S k)))
        = Ok (stale_page c (Some (add c (of_Z 1)))))
  /\ run mount (batched [increment; increment; increment])
     = Ok (stale_page (of_Z 0) (Some (of_Z 1)))
  /\ of_Z 1 <> of_Z 3.
Proof.
  split; [apply run_batched|split; [|split]].
  - intros k. cbn [repeat]. rewrite repeat_cons.
    apply (run_batched (repeat increment k) c (Some c) increment).
  - reflexivity.
  - vm_compute. discriminate.
Qed.

(** * Further properties of the components *)

(** ** The mounted component never fails *)
Section Safety.

(** A page of the running component: some render of [Counter] is on
    display and the cell holds a value. *)
Lemma step_rendered c c' e :
  exists d d', step (stale_page c (Some c')) e = Ok (stale_page d (Some d'))
               /\ (d = c \/ d = c')
               /\ (d' = c' \/ exists t, d' = next t d).
Proof.
  destruct e as [i|].
  - destruct i as [|[|[|i]]].
    + exists c, (next increment c). split; [reflexivity|]. split; eauto.
    + exists c, (next scale c). split; [reflexivity|]. split; eauto.
    + exists c, (next reset c). split; [reflexivity|]. split; eauto.
    + exists c, c'. split; [reflexivity|]. split; eauto.
  - exists c', c'. split; [reflexivity|]. split; eauto.
Qed.

Lemma run_rendered es : forall c c',
  exists d d', run (stale_page c (Some c')) es = Ok (stale_page d (Some d')).
Proof.
  induction es as [|e es IH]; intros c c'; [now exists c, c'|].
  destruct (step_rendered c c' e) as (d & d' & Hstep & _).
  cbn [run]. rewrite Hstep. cbn [bind]. apply IH.
Qed.

(** X1.  Whatever is clicked (also a button the page does not have) and
    whenever React re-renders, nothing throws: the run ends on a page that
    shows a render of [Counter] and whose cell holds a value. *)
Theorem run_never_throws (es : list event) :
  exists captured current,
    run mount es = Ok (stale_page captured (Some current)).
Proof. rewrite mount_page, page_at_stale. apply run_rendered. Qed.

(** X3.  Clicks that React handles in one batch, before it re-renders, do
    not add up: after every batch has been re-rendered the page shows the
    fold over the last click of each batch only, and empty batches (a
    re-render with nothing clicked) change nothing. *)
Theorem batches_keep_last_click (bs : list (list transition)) :
  run mount (schedule bs) = Ok (page_at (fold_next (effective bs) (of_Z 0)))
  /\ run mount (schedule (bs ++ [[]])) = run mount (schedule bs)
  /\ (forall ts t,
        run mount (schedule (bs ++ [ts ++ [t]]))
        = run mount (schedule (bs ++ [[t]]))).
Proof.
  assert (Heff : forall b, effective (bs ++ [b])
                           = effective bs ++ option_list (last b)).
  { intros b. unfold effective. rewrite omap_app. cbn [omap list_omap].
    now destruct (last b). }
  split; [|split]; intros; rewrite mount_page, !run_schedule, ?Heff.
  - reflexivity.
  - cbn [last option_list]. now rewrite app_nil_r.
  - now rewrite last_snoc.
Qed.

(** X12.  After a re-render the page is in step with the cell, whatever
    was clicked before, in whatever batches: the tree is the one [Counter]
    returns for the value the cell holds, and it shows that value. *)
Theorem rerender_catches_up (es : list event) :
  exists current,
    run mount (es ++ [Render]) = Ok (page_at current)
    /\ store (page_at current) = Some current
    /\ displayed (view (page_at current)) = Some (VNum current)
    /\ view (page_at current) = (Counter (Some current)).1.
Proof.
  destruct (run_rendered es (of_Z 0) (of_Z 0)) as (c & c' & Hrun).
  rewrite <- page_at_stale, <- mount_page in Hrun.
  exists c'. rewrite run_app, Hrun. cbn [bind run].
  rewrite rerender_stale_page. now repeat split.
Qed.

End Safety.

(** ** The count stays a count *)
Section Counting.

Lemma shr_1_nonneg mrs : 0 <= shr_m mrs -> 0 <= shr_m (shr_1 mrs).
Proof.
  destruct mrs as [m r s]. destruct m as [|[p|p|]|[p|p|]]; cbn; lia.
Qed.

Lemma shr_nonneg mrs e n : 0 <= shr_m mrs -> 0 <= shr_m (shr mrs e n).1.
Proof.
  intros H. unfold shr. destruct n as [|k|k]; cbn [fst]; try assumption.
  rewrite iter_pos_iter.
  apply (Pos.iter_invariant k _ shr_1 (fun x => 0 <= shr_m x));
    [apply shr_1_nonneg|assumption].
Qed.

Lemma shr_fexp_nonneg m e l :
  0 <= m -> 0 <= shr_m (shr_fexp prec emax m e l).1.
Proof.
  intros H. unfold shr_fexp. apply shr_nonneg.
  destruct l as [|[]]; assumption.
Qed.

Lemma round_nearest_even_nonneg m l : 0 <= m -> 0 <= round_nearest_even m l.
Proof.
  intros H. unfold round_nearest_even.
  destruct l as [|[]]; try destruct (Z.even m); lia.
Qed.

(** Rounding a mantissa that is not negative gives zero, a positive
    Number or [+Infinity]. *)
Lemma binary_round_aux_counting m e l :
  0 <= m -> counting (binary_round_aux prec emax false m e l) = true.
Proof.
  intros H. unfold binary_round_aux.
  pose proof (shr_fexp_nonneg m e l H) as H1.
  destruct (shr_fexp prec emax m e l) as [mrs' e'] eqn:E1. cbn [fst] in H1.
  pose proof (shr_fexp_nonneg _ e' loc_Exact
                (round_nearest_even_nonneg _ (loc_of_shr_record mrs') H1)) as H2.
  destruct (shr_fexp prec emax _ e' loc_Exact) as [mrs'' e''] eqn:E2.
  cbn [fst] in H2.
  destruct (shr_m mrs'') as [|q|q]; [reflexivity| |lia].
  destruct (e'' <=? emax - prec); reflexivity.
Qed.

Lemma binary_round_counting m e :
  counting (binary_round prec emax false m e) = true.
Proof.
  unfold binary_round. destruct (shl_align m e _) as [mz ez].
  apply binary_round_aux_counting. lia.
Qed.

Lemma add_one_counting x : counting x = true -> counting (add x (of_Z 1)) = true.
Proof.
  destruct x as [[]|[]| |[] m e]; try discriminate; intros _; try reflexivity.
  change (of_Z 1) with (S754_finite false 4503599627370496 (-52)).
  unfold add, SFadd, cond_Zopp. cbv zeta.
  rewrite <- Pos2Z.inj_add. apply binary_round_counting.
Qed.

Lemma mul_five_counting x : counting x = true -> counting (mul x (of_Z 5)) = true.
Proof.
  destruct x as [[]|[]| |[] m e]; try discriminate; intros _; try reflexivity.
  change (of_Z 5) with (S754_finite false 5629499534213120 (-50)).
  unfold mul, SFmul. cbn [xorb]. apply binary_round_aux_counting. lia.
Qed.

Lemma next_counting t x : counting x = true -> counting (next t x) = true.
Proof.
  intros H. destruct t; cbn [next].
  - now apply add_one_counting.
  - now apply mul_five_counting.
  - reflexivity.
Qed.

Lemma run_counting es : forall c c',
  counting c = true -> counting c' = true ->
  exists d d', run (stale_page c (Some c')) es = Ok (stale_page d (Some d'))
               /\ counting d = true /\ counting d' = true.
Proof.
  induction es as [|e es IH]; intros c c' Hc Hc'; [now exists c, c'|].
  destruct (step_rendered c c' e) as (d & d' & Hstep & Hd & Hd').
  cbn [run]. rewrite Hstep. cbn [bind]. apply IH.
  - destruct Hd as [->| ->]; assumption.
  - destruct Hd as [->| ->], Hd' as [->|[t ->]];
      try assumption; now apply next_counting.
Qed.

(** X2.  Whatever is clicked and whenever React re-renders, the count on
    display and the count in the cell are zero, a positive Number or
    [+Infinity]: never [NaN], never [-0], never negative. *)
Theorem count_stays_a_count (es : list event) :
  exists shown current,
    run mount es = Ok (stale_page shown (Some current))
    /\ displayed (view (stale_page shown (Some current))) = Some (VNum shown)
    /\ counting shown = true /\ counting current = true.
Proof.
  destruct (run_counting es (of_Z 0) (of_Z 0) eq_refl eq_refl)
    as (d & d' & Hrun & Hd & Hd').
  exists d, d'. rewrite mount_page, page_at_stale. now repeat split.
Qed.

End Counting.

(** ** Rendering *)
Section Rendering.


(** X5.  Called with [undefined] or [null] for props, [CounterButton]
    throws a [TypeError] at the first property read and returns no
    element; called with a boolean, a number or a string it does not
    throw and returns a button without listener and without label. *)
Theorem CounterButton_throws_on_nullish :
  (exists msg, CounterButton VUndefined = Throw (TypeError msg))
  /\ (exists msg, CounterButton VNull = Throw (TypeError msg))
  /\ (forall properties,
        (exists b, properties = VBool b) \/ (exists n, properties = VNum n)
        \/ (exists s, properties = VStr s) ->
        CounterButton properties = Ok (button VUndefined VUndefined)).
Proof.
  split; [|split].
  - eexists. reflexivity.
  - eexists. reflexivity.
  - intros properties [[b ->]|[[n ->]|[s ->]]]; reflexivity.
Qed.

Lemma CounterButton_throws_on_nullish_witness :
  CounterButton (VStr "++") = Ok (button VUndefined VUndefined).
Proof.
  apply (proj2 (proj2 CounterButton_throws_on_nullish)).
  right. right. now exists "++".
Defined.

Lemma button_inj a b a' b' : button a b = button a' b' -> a = a' /\ b = b'.
Proof.
  unfold button. intros H. split.
  - apply (f_equal (fun v => match v with
                             | VElem _ config _ => config !! "onClick"
                             | _ => None
                             end)) in H.
    rewrite !lookup_singleton_eq in H. congruence.
  - apply (f_equal children_of) in H. cbn [children_of] in H. congruence.
Qed.

(** X6.  The button tells the binding: two props objects render the same
    tree exactly when they agree on the callback and on the label. *)
Theorem CounterButton_faithful (fields fields' : gmap string value) :
  CounterButton (VObj fields) = CounterButton (VObj fields')
  <-> field fields "numberFunction" = field fields' "numberFunction"
      /\ field fields "buttonLabel" = field fields' "buttonLabel".
Proof.
  rewrite !CounterButton_object. split.
  - intros H. apply button_inj.
    exact (f_equal (fun r => match r with Ok v => v | Throw _ => VUndefined end) H).
  - intros [-> ->]. reflexivity.
Qed.

(** X7.  Every binding [Counter] hands down meets what [CounterButton]
    expects, in every state: a function, a string and nothing else; so
    the three instances render, without a throw, to three buttons whose
    clicks set the cell from the count of that render. *)
Theorem Counter_bindings_render (h : hooks) :
  let c := default (of_Z 0) h in
  Forall (fun props : gmap string value =>
            dom props = ({[ "numberFunction"; "buttonLabel" ]} : gset string)
            /\ (exists f, props !! "numberFunction" = Some (VFun f))
            /\ (exists s, props !! "buttonLabel" = Some (VStr s)))
         (instances (Counter h).1)
  /\ exists f0 f1 f2,
      render_all (instances (Counter h).1)
      = Ok [button (VFun f0) (VStr "++"); button (VFun f1) (VStr "*=5");
            button (VFun f2) (VStr "=0")]
      /\ forall h', click (button (VFun f0) (VStr "++")) h'
                    = Ok (Some (add c (of_Z 1)))
                    /\ click (button (VFun f1) (VStr "*=5")) h'
                       = Ok (Some (mul c (of_Z 5)))
                    /\ click (button (VFun f2) (VStr "=0")) h'
                       = Ok (Some (of_Z 0)).
Proof.
  intros c. split.
  - unfold Counter, useState, createElement.
    cbn [fst instances flat_map app props_of].
    repeat apply Forall_cons_2; try apply Forall_nil_2;
      (split; [|split; eexists; reflexivity]);
      rewrite dom_insert_L, dom_singleton_L; reflexivity.
  - do 3 eexists. split; [reflexivity|]. intros h'. repeat split.
Qed.

End Rendering.

(** ** Counting with the buttons *)
Section CountingUp.

Lemma fold_next_app ts ts' c :
  fold_next (ts ++ ts') c = fold_next ts' (fold_next ts c).
Proof. apply fold_left_app. Qed.

Lemma fold_increments k : forall n,
  0 <= n -> n + Z.of_nat k <= max_exact ->
  fold_next (repeat increment k) (of_Z n) = of_Z (n + Z.of_nat k).
Proof.
  induction k as [|k IH]; intros n H0 H1.
  - cbn [repeat]. unfold fold_next. cbn [fold_left]. f_equal. lia.
  - change (fold_next (repeat increment (S k)) (of_Z n))
      with (fold_next (repeat increment k) (add (of_Z n) (of_Z 1))).
    rewrite add_one_exact by lia. rewrite IH by lia. f_equal. lia.
Qed.

Lemma fold_scales k : forall n,
  0 <= n -> n * 5 ^ Z.of_nat k <= max_exact ->
  fold_next (repeat scale k) (of_Z n) = of_Z (n * 5 ^ Z.of_nat k).
Proof.
  induction k as [|k IH]; intros n H0 H1.
  - cbn [repeat]. unfold fold_next. cbn [fold_left]. f_equal.
    change (5 ^ Z.of_nat 0) with 1. lia.
  - assert (Hpow : 5 ^ Z.of_nat (S k) = 5 * 5 ^ Z.of_nat k).
    { rewrite Nat2Z.inj_succ, Z.pow_succ_r by lia. reflexivity. }
    assert (Hpos : 0 < 5 ^ Z.of_nat k) by (apply Z.pow_pos_nonneg; lia).
    rewrite Hpow in *.
    change (fold_next (repeat scale (S k)) (of_Z n))
      with (fold_next (repeat scale k) (mul (of_Z n) (of_Z 5))).
    rewrite mul_five_exact by nia. rewrite IH by nia. f_equal. lia.
Qed.

(** X8.  With a re-render after each click, [k] clicks on [++] add [k]
    and [k] clicks on [*=5] multiply by [5^k], as long as the result is
    at most [2^53]. *)
Theorem clicks_add_up (n : Z) (k : nat) :
  0 <= n ->
  (n + Z.of_nat k <= max_exact ->
   run (page_at (of_Z n)) (settled (repeat increment k))
   = Ok (page_at (of_Z (n + Z.of_nat k))))
  /\ (n * 5 ^ Z.of_nat k <= max_exact ->
      run (page_at (of_Z n)) (settled (repeat scale k))
      = Ok (page_at (of_Z (n * 5 ^ Z.of_nat k)))).
Proof.
  intros H0. split; intros H1; rewrite run_settled; do 2 f_equal.
  - now apply fold_increments.
  - now apply fold_scales.
Qed.

Lemma clicks_add_up_witness :
  run (page_at (of_Z 7)) (settled (repeat increment 3)) = Ok (page_at (of_Z 10))
  /\ run (page_at (of_Z 7)) (settled (repeat scale 2)) = Ok (page_at (of_Z 175)).
Proof.
  assert (H0 : 0 <= 7) by lia.
  destruct (clicks_add_up 7 3 H0) as [Hadd _].
  destruct (clicks_add_up 7 2 H0) as [_ Hmul].
  split; [apply Hadd|apply Hmul]; vm_compute; discriminate.
Defined.

Lemma fold_path fuel : forall n,
  0 <= n <= max_exact -> (Z.to_nat n <= fuel)%nat ->
  fold_next (path fuel n) (of_Z 0) = of_Z n.
Proof.
  induction fuel as [|fuel IH]; intros n Hn Hfuel.
  - assert (n = 0) as -> by lia. reflexivity.
  - cbn [path]. destruct (Z.leb_spec n 0) as [Hle|Hlt].
    + assert (n = 0) as -> by lia. reflexivity.
    + pose proof (Z.div_mod n 5 ltac:(lia)) as Hdm.
      pose proof (Z.mod_pos_bound n 5 ltac:(lia)) as Hmod.
      assert (Hq : 0 <= n / 5 < n)
        by (split; [apply Z.div_pos; lia|apply Z.div_lt; lia]).
      rewrite fold_next_app, IH by lia.
      change (fold_next (scale :: ?l) (of_Z (n / 5)))
        with (fold_next l (mul (of_Z (n / 5)) (of_Z 5))).
      rewrite mul_five_exact by lia.
      rewrite fold_increments by lia. f_equal. lia.
Qed.

(** X9.  Every integer from 0 to [2^53] can be put on display: clicking
    along its base-5 digits (for each digit one [*=5], then [++] as many
    times as the digit says) shows exactly that integer. *)
Theorem every_count_is_reachable (n : Z) :
  0 <= n <= max_exact ->
  run mount (settled (path (Z.to_nat n) n)) = Ok (page_at (of_Z n))
  /\ displayed (view (page_at (of_Z n))) = Some (VNum (of_Z n))
  /\ to_Z (of_Z n) = Some n.
Proof.
  intros Hn. split; [|split].
  - rewrite mount_page, run_settled. do 2 f_equal. now apply fold_path.
  - reflexivity.
  - now apply to_Z_of_Z.
Qed.

Lemma every_count_is_reachable_witness :
  run mount (settled [scale; increment; scale; increment; increment;
                      increment; scale; increment; increment])
  = Ok (page_at (of_Z 42))
  /\ to_Z (of_Z 42) = Some 42.
Proof.
  pose proof (every_count_is_reachable 42) as H.
  change (path (Z.to_nat 42) 42)
    with [scale; increment; scale; increment; increment;
          increment; scale; increment; increment] in H.
  destruct H as (Hrun & _ & Hz); [vm_compute; split; discriminate|].
  split; assumption.
Defined.

End CountingUp.

(** ** Past the exact integers: no guard against overflow *)
Section Overflow.

(** A shift to the right drops zeros below a round bit and a sticky bit
    that are kept in the record. *)
Lemma shr_1_zeros k : forall r rb sb,
  Pos.iter shr_1 (Build_shr_record (Zpos (Pos.iter xO r k)) rb sb) k
  = Build_shr_record (Zpos r) false (rb || sb).
Proof.
  induction k as [|k IH] using Pos.peano_ind; intros r rb sb.
  - reflexivity.
  - rewrite (Pos.iter_succ k _ xO), Pos.iter_succ_r.
    cbn [shr_1]. rewrite IH. reflexivity.
Qed.

(** A Number of exponent 2 or more (that is, from [2^54] on) takes no
    notice of [+ 1]: the 1 is less than half a unit in the last place. *)
Lemma add_one_absorbed m e :
  bounded prec emax m e = true -> 2 <= e ->
  add (S754_finite false m e) (of_Z 1) = S754_finite false m e.
Proof.
  intros Hb He. unfold bounded, canonical_mantissa in Hb.
  apply andb_true_iff in Hb as [Hc Hmax].
  apply Z.eqb_eq in Hc. apply Z.leb_le in Hmax.
  assert (Hd : Zpos (digits2_pos m) = prec)
    by (unfold fexp, emin, prec, emax in *; lia).
  pose (j := Z.to_pos (e - 1)).
  assert (Hj : Zpos j = e - 1) by (unfold j; rewrite Z2Pos.id; lia).
  change (of_Z 1) with (S754_finite false 4503599627370496 (-52)).
  unfold add, SFadd, cond_Zopp. cbv zeta.
  replace (Z.min e (-52)) with (-52) by lia.
  assert (Hx : shl_align m e (-52) = (Pos.iter xO m (j + 53), -52)).
  { unfold shl_align. replace (-52 - e) with (Zneg (j + 53)) by lia.
    reflexivity. }
  rewrite Hx. clear Hx. cbn [fst].
  change ((shl_align 4503599627370496 (-52) (-52)).1)
    with 4503599627370496%positive.
  rewrite <- Pos2Z.inj_add. unfold binary_normalize.
  (* the sum is [m] shifted by [j + 53], with one bit set at place 52 *)
  assert (Hs : (Pos.iter xO m (j + 53) + 4503599627370496)%positive
               = Pos.iter xO (xI (Pos.iter xO m j)) 52).
  { apply Pos2Z.inj. rewrite Pos2Z.inj_add, !Zpos_iter_xO, Pos2Z.inj_xI.
    rewrite Zpos_iter_xO, Pos2Z.inj_add, Z.pow_add_r by lia.
    change (2 ^ 52) with 4503599627370496.
    change (2 ^ 53) with 9007199254740992. lia. }
  rewrite Hs.
  assert (Hds : Zpos (digits2_pos (Pos.iter xO (xI (Pos.iter xO m j)) 52))
                = prec + Zpos j + 53).
  { rewrite digits2_pos_iter. cbn [digits2_pos].
    rewrite digits2_pos_iter. lia. }
  unfold binary_round. rewrite Hds. unfold fexp at 1, emin.
  replace (Z.max (prec + Zpos j + 53 + -52 - prec) (3 - emax - prec)) with e
    by (unfold prec, emax in *; lia).
  unfold shl_align. replace (e - -52) with (Zpos (j + 53)) by lia.
  cbv beta iota.
  assert (Hstep1 : shr_fexp prec emax
                     (Zpos (Pos.iter xO (xI (Pos.iter xO m j)) 52)) (-52) loc_Exact
                   = (Build_shr_record (Zpos m) false true, e)).
  { unfold shr_fexp, shr_record_of_loc, Zdigits2. rewrite Hds.
    unfold fexp, emin.
    replace (Z.max (prec + Zpos j + 53 + -52 - prec) (3 - emax - prec) - -52)
      with (Zpos (j + (1 + 52))) by (unfold prec, emax in *; lia).
    unfold shr. rewrite iter_pos_iter, Pos.iter_add, Pos.iter_add.
    rewrite shr_1_exact. cbn [Pos.iter shr_1].
    rewrite shr_1_zeros. f_equal. lia. }
  assert (Hstep2 : shr_fexp prec emax (Zpos m) e loc_Exact
                   = (Build_shr_record (Zpos m) false false, e)).
  { unfold shr_fexp, shr_record_of_loc, Zdigits2. rewrite Hd.
    unfold fexp, emin.
    replace (Z.max (prec + e - prec) (3 - emax - prec) - e) with 0
      by (unfold prec, emax in *; lia).
    reflexivity. }
  unfold binary_round_aux. rewrite Hstep1.
  cbn [shr_m loc_of_shr_record round_nearest_even].
  rewrite Hstep2. cbn [shr_m].
  replace (e <=? emax - prec) with true by (symmetry; now apply Z.leb_le).
  reflexivity.
Qed.

(** X10.  From [2^54] on the [++] button is dead: on a page that shows a
    Number of exponent 2 or more, any number of clicks on [++], each
    followed by a re-render, leaves the page as it is.  One [++] and 24
    [*=5] from the start are enough to get there. *)
Theorem increment_is_absorbed (m : positive) (e : Z) (k : nat) :
  bounded prec emax m e = true -> 2 <= e ->
  run (page_at (S754_finite false m e)) (settled (repeat increment k))
  = Ok (page_at (S754_finite false m e))
  /\ run (page_at (S754_finite false m e)) (batched (repeat increment k))
     = Ok (page_at (S754_finite false m e)).
Proof.
  intros Hb He. split.
  - rewrite run_settled. do 2 f_equal.
    induction k as [|k IH]; [reflexivity|].
    change (fold_next (repeat increment (S k)) (S754_finite false m e))
      with (fold_next (repeat increment k)
              (add (S754_finite false m e) (of_Z 1))).
    now rewrite add_one_absorbed.
  - destruct k as [|k]; [reflexivity|].
    cbn [repeat]. rewrite repeat_cons, page_at_stale, run_batched.
    cbn [next]. now rewrite add_one_absorbed.
Qed.

Lemma increment_is_absorbed_witness :
  run mount (settled (increment :: repeat scale 24))
  = Ok (page_at (S754_finite false 7450580596923828 3))
  /\ run (page_at (S754_finite false 7450580596923828 3))
       (settled (repeat increment 5))
     = Ok (page_at (S754_finite false 7450580596923828 3)).
Proof.
  split; [vm_compute; reflexivity|].
  apply (increment_is_absorbed 7450580596923828 3 5); [reflexivity|lia].
Defined.

Lemma next_infinity t : t <> reset -> next t infinity = infinity.
Proof. destruct t; [reflexivity|reflexivity|congruence]. Qed.

Lemma fold_next_infinity ts :
  Forall (fun t => t <> reset) ts -> fold_next ts infinity = infinity.
Proof.
  induction 1 as [|t ts Ht _ IH]; [reflexivity|].
  unfold fold_next in *. cbn [fold_left]. now rewrite next_infinity.
Qed.

(** X11.  Nothing guards the product: one [++] and 442 [*=5] put
    [Infinity] on display (441 do not), and after that no sequence of
    [++] and [*=5] changes it; [=0] still brings the count back to 0. *)
Theorem count_overflows_to_infinity (ts : list transition) :
  Forall (fun t => t <> reset) ts ->
  run mount (settled (increment :: repeat scale 442 ++ ts))
  = Ok (page_at infinity)
  /\ run mount (settled (increment :: repeat scale 441))
     = Ok (page_at (S754_finite false 8823606307223101 971))
  /\ run mount (settled (increment :: repeat scale 442 ++ ts ++ [reset]))
     = Ok (page_at (of_Z 0)).
Proof.
  intros Hts.
  assert (Hinf : fold_next (increment :: repeat scale 442) (of_Z 0) = infinity)
    by (vm_compute; reflexivity).
  split; [|split].
  - rewrite mount_page, run_settled. do 2 f_equal.
    change (increment :: repeat scale 442 ++ ts)
      with ((increment :: repeat scale 442) ++ ts).
    rewrite fold_next_app, Hinf. now apply fold_next_infinity.
  - assert (Hfin : fold_next (increment :: repeat scale 441) (of_Z 0)
                   = S754_finite false 8823606307223101 971)
      by (vm_compute; reflexivity).
    now rewrite mount_page, run_settled, Hfin.
  - rewrite mount_page, run_settled. do 2 f_equal.
    change (increment :: repeat scale 442 ++ ts ++ [reset])
      with ((increment :: repeat scale 442) ++ ts ++ [reset]).
    rewrite !fold_next_app, Hinf, fold_next_infinity by assumption.
    reflexivity.
Qed.

Lemma count_overflows_to_infinity_witness :
  run mount (settled (increment :: repeat scale 442 ++ [increment; scale]))
  = Ok (page_at infinity).
Proof.
  apply (count_overflows_to_infinity [increment; scale]).
  repeat constructor; discriminate.
Defined.

End Overflow.
